(** * explorer/stats.py: fitting a distribution and drawing variates from it

    A shallow embedding of the module [explorer/stats.py]: the registry
    [DISTRIBUTIONS], the module-level generator functions, [get_params] and
    the callable class [DistGen]; and, from [d8analysis/data/dataset.py], of
    the choice of columns in [Dataset.select].

    The module computes nothing numerical itself.  It looks a name up in a
    dictionary, asks [scipy.stats] to fit the family to the data, unpacks the
    resulting tuple and asks [scipy.stats] for [len(data)] variates.  The
    library is therefore an interface here (record [scipy]); everything the
    module does around it (dictionary lookups, exception handlers, tuple
    unpacking, logging, the [size] argument) is embedded as written. *)

From Stdlib Require Import String Ascii DecimalString.
From stdpp Require Import gmap strings list.

Local Open Scope string_scope.

(** ** Python exceptions and outcomes *)

(** An exception is its class, the classes that class inherits from, and the
    string of its argument.  The two handlers of the module,
    [except AttributeError] and [except KeyError], take every instance of the
    class they name: the class itself and whatever inherits from it, also a
    class of the library that inherits from both. *)
Record exception := Exception {
  exc_class : string;
  exc_bases : list string;
  exc_arg : string
}.

(** The built-in exceptions the module meets, with their ancestors. *)
Definition KeyError (key : string) : exception :=
  Exception "KeyError" ["LookupError"; "Exception"; "BaseException"] key.
Definition AttributeError (msg : string) : exception :=
  Exception "AttributeError" ["Exception"; "BaseException"] msg.
Definition ValueError (msg : string) : exception :=
  Exception "ValueError" ["Exception"; "BaseException"] msg.
Definition NotImplementedError (msg : string) : exception :=
  Exception "NotImplementedError" ["RuntimeError"; "Exception"; "BaseException"] msg.

(** [isinstance(e, cls)], the test an [except cls] clause makes. *)
Definition isinstance (e : exception) (cls : string) : bool :=
  bool_decide (cls ∈ exc_class e :: exc_bases e).

Inductive outcome (A : Type) : Type :=
| Return (a : A)
| Raise (e : exception).
Arguments Return {A} a.
Arguments Raise {A} e.

(** ** The part of [scipy.stats] the module uses *)

Module stats.
(** The distribution objects named in the module. *)
Inductive rv_continuous : Set :=
| norm | chi2 | expon | gamma | logistic | uniform | lognorm | pareto.
End stats.

(** [float] stands for numpy's float64 and [twice] for Python's [2 * a] on it;
    [RandomState] is the state of numpy's process-wide random source.
    [fit rv data] is [rv.fit(data)]: a tuple of parameters or an exception.
    [rvs rv shapes loc scale size] is [rv.rvs(<shapes>, loc=, scale=, size=)],
    which advances the random source. *)
Record scipy : Type := Scipy {
  float : Type;
  RandomState : Type;
  twice : float -> float;
  fit : stats.rv_continuous -> list float -> outcome (list float);
  rvs : stats.rv_continuous -> list float -> float -> float -> nat ->
        RandomState -> outcome (list float) * RandomState
}.

(** ** Logging *)

Inductive level : Set := DEBUG | ERROR.

(** One call of a logger method: which logger, at which level, what text. *)
Record LogRecord := { name : string; levelname : level; msg : string }.

(** ** Strings *)

Definition upper (c : ascii) : ascii :=
  let n := nat_of_ascii c in
  if (97 <=? n)%nat && (n <=? 122)%nat then ascii_of_nat (n - 32) else c.

Definition lower (c : ascii) : ascii :=
  let n := nat_of_ascii c in
  if (65 <=? n)%nat && (n <=? 90)%nat then ascii_of_nat (n + 32) else c.

Fixpoint map_string (f : ascii -> ascii) (s : string) : string :=
  match s with
  | EmptyString => EmptyString
  | String c r => String (f c) (map_string f r)
  end.

(** [str.capitalize()] on ASCII text: first character upper case, the rest
    lower case. *)
Definition capitalize (s : string) : string :=
  match s with
  | EmptyString => EmptyString
  | String c r => String (upper c) (map_string lower r)
  end.

(** [needle in hay] for Python strings. *)
Fixpoint contains (hay needle : string) : bool :=
  String.prefix needle hay ||
  match hay with
  | EmptyString => false
  | String _ r => contains r needle
  end.

Definition str_of_nat (n : nat) : string := NilEmpty.string_of_uint (Nat.to_uint n).

(** ** The registry *)

(** [DISTRIBUTIONS], the dictionary literal at the top of the module. *)
Definition DISTRIBUTIONS : gmap string stats.rv_continuous :=
  list_to_map [
    ("normal", stats.norm);
    ("chi2", stats.chi2);
    ("exponential", stats.expon);
    ("gamma", stats.gamma);
    ("logistic", stats.logistic);
    ("uniform", stats.uniform)
  ].

(** The eight names the specification lists as supported. *)
Definition supported_names : list string :=
  ["normal"; "chi2"; "exponential"; "gamma"; "logistic"; "uniform";
   "lognorm"; "pareto"].

Section Stats.
Variable lib : scipy.

Local Abbreviation ndarray := (list (float lib)).

(** ** Computations: the random source and the log are threaded, an
    exception ends the computation with the state reached so far. *)
Record world : Type := World { random_state : RandomState lib; records : list LogRecord }.

Definition M (A : Type) : Type := world -> outcome A * world.

Definition ret {A} (a : A) : M A := fun w => (Return a, w).
Definition raise {A} (e : exception) : M A := fun w => (Raise e, w).

Definition bind {A B} (m : M A) (k : A -> M B) : M B :=
  fun w => match m w with
           | (Return a, w') => k a w'
           | (Raise e, w') => (Raise e, w')
           end.

(** [try: body / except cls as e: handler e]. *)
Definition try_except {A} (body : M A) (cls : string) (handler : exception -> M A) : M A :=
  fun w => match body w with
           | (Return a, w') => (Return a, w')
           | (Raise e, w') => if isinstance e cls then handler e w' else (Raise e, w')
           end.

Definition of_outcome {A} (o : outcome A) : M A := fun w => (o, w).

Definition log (logger : string) (lvl : level) (text : string) : M unit :=
  fun w => (Return tt,
            World (random_state w)
                  (records w ++ [ {| name := logger; levelname := lvl; msg := text |} ])).

(** A call of [rv.rvs] on the shared random source. *)
Definition rvs_call (rv : stats.rv_continuous) (shapes : ndarray)
    (loc scale : float lib) (size : nat) : M ndarray :=
  fun w => let (o, r) := rvs lib rv shapes loc scale size (random_state w) in
           (o, World r (records w)).

(** [d[key]] on a dictionary. *)
Definition getitem {V} (d : gmap string V) (key : string) : M V :=
  match d !! key with
  | Some v => ret v
  | None => raise (KeyError key)
  end.

(** [x, y = t] and [x, y, z = t]. *)
Definition unpack_error (expected got : nat) : exception :=
  if (got <? expected)%nat
  then ValueError ("not enough values to unpack (expected " +:+ str_of_nat expected
                   +:+ ", got " +:+ str_of_nat got +:+ ")")
  else ValueError ("too many values to unpack (expected " +:+ str_of_nat expected +:+ ")").

Definition unpack2 (t : ndarray) : M (float lib * float lib) :=
  match t with
  | [x; y] => ret (x, y)
  | _ => raise (unpack_error 2 (length t))
  end.

Definition unpack3 (t : ndarray) : M (float lib * float lib * float lib) :=
  match t with
  | [x; y; z] => ret (x, y, z)
  | _ => raise (unpack_error 3 (length t))
  end.

(** The module's logger, [logging.getLogger(__name__)]. *)
Definition logger : string := "explorer.stats".

(** ** [get_params] *)
Definition get_params (data : ndarray) (distribution : string) : M ndarray :=
  try_except
    (bind (getitem DISTRIBUTIONS distribution) (fun rv => of_outcome (fit lib rv data)))
    "AttributeError"
    (fun e =>
       let msg := capitalize distribution +:+ " has no fit attribute." in
       bind (log logger ERROR msg) (fun _ => raise e)).

(** ** The generators *)
Definition normal (data : ndarray) : M ndarray :=
  bind (get_params data "normal") (fun t =>
  bind (unpack2 t) (fun '(loc, scale) =>
  rvs_call stats.norm [] loc scale (length data))).

Definition chi2 (data : ndarray) : M ndarray :=
  bind (get_params data "chi2") (fun t =>
  bind (unpack3 t) (fun '(a, loc, scale) =>
  let df := twice lib a in
  rvs_call stats.chi2 [df] loc scale (length data))).

Definition exponential (data : ndarray) : M ndarray :=
  bind (get_params data "exponential") (fun t =>
  bind (unpack2 t) (fun '(loc, scale) =>
  rvs_call stats.expon [] loc scale (length data))).

Definition gamma (data : ndarray) : M ndarray :=
  bind (get_params data "gamma") (fun t =>
  bind (unpack3 t) (fun '(a, loc, scale) =>
  rvs_call stats.gamma [a] loc scale (length data))).

Definition logistic (data : ndarray) : M ndarray :=
  bind (get_params data "logistic") (fun t =>
  bind (unpack2 t) (fun '(loc, scale) =>
  rvs_call stats.logistic [] loc scale (length data))).

Definition lognorm (data : ndarray) : M ndarray :=
  bind (get_params data "lognorm") (fun t =>
  bind (unpack3 t) (fun '(s, loc, scale) =>
  rvs_call stats.lognorm [s] loc scale (length data))).

Definition pareto (data : ndarray) : M ndarray :=
  bind (get_params data "pareto") (fun t =>
  bind (unpack3 t) (fun '(b, loc, scale) =>
  rvs_call stats.pareto [b] loc scale (length data))).

Definition uniform (data : ndarray) : M ndarray :=
  bind (get_params data "uniform") (fun t =>
  bind (unpack2 t) (fun '(loc, scale) =>
  rvs_call stats.uniform [] loc scale (length data))).

(** ** [DistGen] *)

(** [DistGen.__GENERATORS], with the functions it names. *)
Definition named_generators : list (string * (ndarray -> M ndarray)) :=
  [ ("normal", normal);
    ("chi2", chi2);
    ("exponential", exponential);
    ("gamma", gamma);
    ("logistic", logistic);
    ("uniform", uniform) ].

Definition GENERATORS : gmap string (ndarray -> M ndarray) :=
  list_to_map named_generators.

(** An instance holds its logger, [logging.getLogger("DistGen")]. *)
Record DistGen : Type := { _logger : string }.

Definition DistGen_init : DistGen := {| _logger := "DistGen" |}.

(** [DistGen.__call__]. *)
Definition DistGen_call (self : DistGen) (data : ndarray) (distribution : string)
    : M ndarray :=
  try_except
    (bind (getitem GENERATORS distribution) (fun generator => generator data))
    "KeyError"
    (fun _ =>
       let msg := distribution +:+ " is not supported." in
       bind (log (_logger self) DEBUG msg) (fun _ => raise (NotImplementedError msg))).

(** ** States and assumptions the properties speak of *)

(** The state left by the [AttributeError] handler of [get_params]. *)
Definition no_fit_logged (distribution : string) (w : world) : world :=
  World (random_state w)
    (records w ++
     [ {| name := logger; levelname := ERROR;
          msg := capitalize distribution +:+ " has no fit attribute." |} ]).

(** The state left by the [KeyError] handler of [DistGen.__call__]. *)
Definition refused (self : DistGen) (distribution : string) (w : world) : world :=
  World (random_state w)
    (records w ++
     [ {| name := _logger self; levelname := DEBUG;
          msg := distribution +:+ " is not supported." |} ]).

(** What [rv.rvs(..., size=n)] promises about its result: [n] variates. *)
Definition rvs_size : Prop :=
  forall rv shapes loc scale size r xs r',
    rvs lib rv shapes loc scale size r = (Return xs, r') -> length xs = size.

(** The library raises no [KeyError] of its own. *)
Definition no_KeyError : Prop :=
  (forall rv data e, fit lib rv data = Raise e -> isinstance e "KeyError" = false) /\
  (forall rv shapes loc scale size r e r',
     rvs lib rv shapes loc scale size r = (Raise e, r') -> isinstance e "KeyError" = false).

End Stats.

(** ** A small instance of the interface

    Integers for floats and a tape of coin flips for the random source, so
    that the definitions above can be run.  It is a stand-in to run the module
    on, not a model of what scipy computes.  On an empty sample it fails where
    the library is known to: the fits of [uniform] and [expon] take the
    minimum of the data and raise; the other fits return a scale that is no
    scale (here [-1], for the library's nan) and it is [rvs] that rejects
    it. *)
Module Toy.

Definition minimum (l : list Z) : Z := foldr Z.min (hd 0%Z l) l.
Definition maximum (l : list Z) : Z := foldr Z.max (hd 0%Z l) l.

Definition fit (rv : stats.rv_continuous) (data : list Z) : outcome (list Z) :=
  match data with
  | [] =>
    match rv with
    | stats.uniform | stats.expon =>
      Raise (ValueError
               "zero-size array to reduction operation minimum which has no identity")
    | stats.norm | stats.logistic => Return [0; -1]%Z
    | _ => Return [0; 0; -1]%Z
    end
  | _ =>
    let lo := minimum data in
    let width := (maximum data - lo)%Z in
    match rv with
    | stats.norm | stats.expon | stats.logistic | stats.uniform => Return [lo; width]
    | _ => Return [Z.of_nat (length data); lo; width]
    end
  end.

(** One variate per flip: the low or the high end of the range.  A tape that
    has run out reads as tails. *)
Fixpoint draw (size : nat) (low high : Z) (tape : list bool) : list Z * list bool :=
  match size with
  | O => ([], tape)
  | S n =>
    let (xs, tape') := draw n low high (tl tape) in
    ((if hd false tape then high else low) :: xs, tape')
  end.

Definition rvs (rv : stats.rv_continuous) (shapes : list Z) (loc scale : Z)
    (size : nat) (tape : list bool) : outcome (list Z) * list bool :=
  if (scale <? 0)%Z
  then (Raise (ValueError "Domain error in arguments."), tape)
  else let low := (loc + foldr Z.add 0%Z shapes)%Z in
       let (xs, tape') := draw size low (low + scale)%Z tape in
       (Return xs, tape').

Definition lib : scipy := Scipy Z (list bool) (Z.mul 2) fit rvs.

(** The world at start: a tape of seven flips, nothing logged. *)
Definition w0 : world lib :=
  World lib [true; false; false; true; true; false; true] [].

(** The same library with a [fit] that fails with a [KeyError] on every
    sample, the exception a lookup with a missing key raises. *)
Definition lib_KeyError : scipy :=
  Scipy Z (list bool) (Z.mul 2) (fun _ _ => Raise (KeyError "0")) rvs.

(** And with a [fit] that fails with an exception of a class that inherits
    from both [AttributeError] and [KeyError]. *)
Definition MissingField (msg : string) : exception :=
  Exception "MissingField"
    ["AttributeError"; "KeyError"; "LookupError"; "Exception"; "BaseException"] msg.

Definition lib_MissingField : scipy :=
  Scipy Z (list bool) (Z.mul 2) (fun _ _ => Raise (MissingField "loc")) rvs.

End Toy.

(** * d8analysis/data/dataset.py: the columns [Dataset.select] asks for *)

(** The list [cols] computed in the body of [Dataset.select] from the labels
    of the frame, [self._df.columns], and the arguments [include] and
    [exclude] ([None] by default); the method then indexes the frame with it.
    [col in l] on a list is membership by equality. *)
Definition select_cols (columns : list string) (include exclude : option (list string))
    : list string :=
  match exclude with
  | Some exclude => filter (fun col => col ∉ exclude) columns
  | None =>
    match include with
    | Some include => filter (fun col => col ∈ include) columns
    | None => columns
    end
  end.


(** * Properties *)

(** ** Strings *)

Lemma prefix_app (s t : string) : String.prefix s (s +:+ t) = true.
Proof.
  induction s as [|c s IH]; simpl.
  - by destruct t.
  - destruct (ascii_dec c c) as [_|ne]; [exact IH | by destruct ne].
Qed.

Lemma contains_app (s t : string) : contains (s +:+ t) s = true.
Proof.
  destruct s as [|c s]; simpl.
  - by destruct t.
  - rewrite (prefix_app s t).
    destruct (ascii_dec c c) as [_|ne]; [done | by destruct ne].
Qed.

(** ** The two dictionaries *)

(** Membership in a list written out in full. *)
Ltac listed := repeat first [apply list_elem_of_here | apply list_elem_of_further].

Lemma registered_names_NoDup :
  NoDup ["normal"; "chi2"; "exponential"; "gamma"; "logistic"; "uniform"].
Proof. apply (bool_decide_unpack _). by vm_compute. Qed.

Lemma lognorm_pareto_not_keys :
  ("lognorm" ∉ ["normal"; "chi2"; "exponential"; "gamma"; "logistic"; "uniform"]) /\
  ("pareto" ∉ ["normal"; "chi2"; "exponential"; "gamma"; "logistic"; "uniform"]).
Proof. split; apply (bool_decide_unpack _); by vm_compute. Qed.

Lemma DISTRIBUTIONS_unregistered (d : string) :
  d ∉ ["normal"; "chi2"; "exponential"; "gamma"; "logistic"; "uniform"] ->
  DISTRIBUTIONS !! d = None.
Proof. intros Hd. by apply not_elem_of_list_to_map_1. Qed.

Section Facts.
Variable lib : scipy.
Implicit Types (data arr : list (float lib)) (w : world lib) (d : string).
Implicit Type g : list (float lib) -> M lib (list (float lib)).

Lemma GENERATORS_unregistered d :
  d ∉ ["normal"; "chi2"; "exponential"; "gamma"; "logistic"; "uniform"] ->
  GENERATORS lib !! d = None.
Proof. intros Hd. by apply not_elem_of_list_to_map_1. Qed.

Lemma GENERATORS_registered d g :
  (d, g) ∈ named_generators lib -> GENERATORS lib !! d = Some g.
Proof.
  intros Hd. apply elem_of_list_to_map_1; [|exact Hd].
  exact registered_names_NoDup.
Qed.

(** ** [DistGen.__call__] step by step *)

Lemma DistGen_call_None self data d w :
  GENERATORS lib !! d = None ->
  DistGen_call lib self data d w =
    (Raise (NotImplementedError (d +:+ " is not supported.")), refused lib self d w).
Proof.
  intros Hd. unfold DistGen_call, try_except, bind, getitem. by rewrite Hd.
Qed.

Lemma DistGen_call_Some self data d g w :
  GENERATORS lib !! d = Some g ->
  DistGen_call lib self data d w =
    match g data w with
    | (Raise e, w') =>
      if isinstance e "KeyError"
      then (Raise (NotImplementedError (d +:+ " is not supported.")), refused lib self d w')
      else (Raise e, w')
    | r => r
    end.
Proof.
  intros Hd. unfold DistGen_call, try_except, bind, getitem. rewrite Hd. simpl.
  destruct (g data w) as [[arr|e] w']; [done|].
  by destruct (isinstance e "KeyError").
Qed.

End Facts.

(** ** [get_params] and the generators *)

Section Generators.
Variable lib : scipy.
Implicit Types (data arr t : list (float lib)) (w : world lib) (d : string).
Implicit Type g : list (float lib) -> M lib (list (float lib)).

Lemma DISTRIBUTIONS_registered d rv :
  (d, rv) ∈ [ ("normal", stats.norm); ("chi2", stats.chi2); ("exponential", stats.expon);
              ("gamma", stats.gamma); ("logistic", stats.logistic);
              ("uniform", stats.uniform) ] ->
  DISTRIBUTIONS !! d = Some rv.
Proof.
  intros Hd. apply elem_of_list_to_map_1; [|exact Hd].
  exact registered_names_NoDup.
Qed.

Lemma get_params_unregistered data d w :
  DISTRIBUTIONS !! d = None -> get_params lib data d w = (Raise (KeyError d), w).
Proof.
  intros Hd. unfold get_params, try_except, bind, getitem. by rewrite Hd.
Qed.

Lemma get_params_registered data d rv w :
  DISTRIBUTIONS !! d = Some rv ->
  get_params lib data d w =
    match fit lib rv data with
    | Return t => (Return t, w)
    | Raise e => (Raise e, if isinstance e "AttributeError" then no_fit_logged lib d w else w)
    end.
Proof.
  intros Hd. unfold get_params, try_except, bind, getitem, of_outcome. rewrite Hd. simpl.
  destruct (fit lib rv data) as [t|e]; [done|].
  by destruct (isinstance e "AttributeError").
Qed.

Lemma unpack_error_class (expected got : nat) :
  exc_class (unpack_error expected got) = "ValueError" /\
  isinstance (unpack_error expected got) "KeyError" = false.
Proof. unfold unpack_error. by destruct (got <? expected)%nat. Qed.

Lemma rvs_call_length rv shapes loc scale size w arr w' :
  rvs_size lib -> rvs_call lib rv shapes loc scale size w = (Return arr, w') -> length arr = size.
Proof.
  intros Hsize. unfold rvs_call.
  destruct (rvs lib rv shapes loc scale size (random_state lib w)) as [o r] eqn:E.
  intros [= -> <-]. by eapply Hsize.
Qed.

Lemma rvs_call_KeyError rv shapes loc scale size w e w' :
  no_KeyError lib -> rvs_call lib rv shapes loc scale size w = (Raise e, w') ->
  isinstance e "KeyError" = false.
Proof.
  intros [_ Hrvs]. unfold rvs_call.
  destruct (rvs lib rv shapes loc scale size (random_state lib w)) as [o r] eqn:E.
  intros [= -> <-]. by eapply Hrvs.
Qed.

(** Runs a registered generator up to its call of [rvs]: the lookup in
    [DISTRIBUTIONS], the fit and the unpacking of the tuple. *)
Ltac run_generator rv data :=
  unfold normal, chi2, exponential, gamma, logistic, uniform, bind;
  rewrite (get_params_registered data _ rv) by (apply DISTRIBUTIONS_registered; listed);
  let t := fresh "t" in
  let e := fresh "e" in
  destruct (fit lib rv data) as [t|e] eqn:?; simpl;
  [ destruct t as [|? [|? [|? [|? ?]]]]; simpl | ].

Lemma generator_length d g data w arr w' :
  rvs_size lib -> (d, g) ∈ named_generators lib ->
  g data w = (Return arr, w') -> length arr = length data.
Proof.
  intros Hsize Hd. unfold named_generators in Hd.
  repeat (apply elem_of_cons in Hd as [[= -> ->]|Hd]); [..|by apply elem_of_nil in Hd].
  - run_generator stats.norm data; try done; by apply rvs_call_length.
  - run_generator stats.chi2 data; try done; by apply rvs_call_length.
  - run_generator stats.expon data; try done; by apply rvs_call_length.
  - run_generator stats.gamma data; try done; by apply rvs_call_length.
  - run_generator stats.logistic data; try done; by apply rvs_call_length.
  - run_generator stats.uniform data; try done; by apply rvs_call_length.
Qed.

Lemma generator_KeyError d g data w e w' :
  no_KeyError lib -> (d, g) ∈ named_generators lib ->
  g data w = (Raise e, w') -> isinstance e "KeyError" = false.
Proof.
  intros Hlib Hd. unfold named_generators in Hd.
  assert (Hunpack : forall n m, isinstance (unpack_error n m) "KeyError" = false).
  { intros n m. apply unpack_error_class. }
  destruct Hlib as [Hfit Hrvs].
  repeat (apply elem_of_cons in Hd as [[= -> ->]|Hd]); [..|by apply elem_of_nil in Hd].
  - run_generator stats.norm data;
      first [ by apply rvs_call_KeyError | intros [= <- _]; solve [done | eauto] ].
  - run_generator stats.chi2 data;
      first [ by apply rvs_call_KeyError | intros [= <- _]; solve [done | eauto] ].
  - run_generator stats.expon data;
      first [ by apply rvs_call_KeyError | intros [= <- _]; solve [done | eauto] ].
  - run_generator stats.gamma data;
      first [ by apply rvs_call_KeyError | intros [= <- _]; solve [done | eauto] ].
  - run_generator stats.logistic data;
      first [ by apply rvs_call_KeyError | intros [= <- _]; solve [done | eauto] ].
  - run_generator stats.uniform data;
      first [ by apply rvs_call_KeyError | intros [= <- _]; solve [done | eauto] ].
Qed.

End Generators.

(** ** Runs on the small instance *)

Example DistGen_call_uniform_run :
  DistGen_call Toy.lib DistGen_init [1; 2; 3; 4; 5]%Z "uniform" Toy.w0 =
    (Return [5; 1; 1; 5; 5]%Z, World Toy.lib [false; true] []).
Proof. by vm_compute. Qed.

Example DistGen_call_empty_run :
  DistGen_call Toy.lib DistGen_init [] "uniform" Toy.w0 =
    (Raise (ValueError "zero-size array to reduction operation minimum which has no identity"),
     Toy.w0) /\
  DistGen_call Toy.lib DistGen_init [] "normal" Toy.w0 =
    (Raise (ValueError "Domain error in arguments."), Toy.w0).
Proof. split; by vm_compute. Qed.

(** The fit of [stats.chi2] to [[1; 2; 3; 4; 5]] is [(5, 1, 4)] here; [chi2]
    draws with [df = 10], which is not what [df = 5] draws. *)
Example chi2_run :
  chi2 Toy.lib [1; 2; 3; 4; 5]%Z Toy.w0 =
    (Return [15; 11; 11; 15; 15]%Z, World Toy.lib [false; true] []) /\
  rvs_call Toy.lib stats.chi2 [5%Z] 1%Z 4%Z 5 Toy.w0 =
    (Return [10; 6; 6; 10; 10]%Z, World Toy.lib [false; true] []).
Proof. split; by vm_compute. Qed.

(** ** The dispatcher on the names it knows *)

Section Dispatcher.
Variable lib : scipy.
Implicit Types (data arr : list (float lib)) (w : world lib) (d : string) (self : DistGen).
Implicit Type g : list (float lib) -> M lib (list (float lib)).

(** For the six names of [__GENERATORS] an array that comes back has the
    length of the data, given that [rvs] honours its [size] argument. *)
Lemma DistGen_call_length self d g data w arr w' :
  rvs_size lib -> (d, g) ∈ named_generators lib ->
  DistGen_call lib self data d w = (Return arr, w') -> length arr = length data.
Proof.
  intros Hsize Hd. rewrite (DistGen_call_Some lib self data d g w) by by apply GENERATORS_registered.
  destruct (g data w) as [[a|e] w1] eqn:Hg.
  - intros [= <- <-]. by eapply generator_length.
  - by destruct (isinstance e "KeyError").
Qed.

(** And an array does come back when the fit and the sampling succeed.  Shown
    on [normal]; the other five generators differ in the family and in the
    arity of the tuple only. *)
Lemma DistGen_call_normal_returns self data w loc scale arr r :
  fit lib stats.norm data = Return [loc; scale] ->
  rvs lib stats.norm [] loc scale (length data) (random_state lib w) = (Return arr, r) ->
  DistGen_call lib self data "normal" w = (Return arr, World lib r (records lib w)).
Proof.
  intros Hfit Hrvs.
  rewrite (DistGen_call_Some lib self data "normal" (normal lib) w)
    by (apply GENERATORS_registered; listed).
  unfold normal, bind.
  rewrite (get_params_registered lib data _ stats.norm)
    by (apply DISTRIBUTIONS_registered; listed).
  rewrite Hfit. simpl. unfold rvs_call. by rewrite Hrvs.
Qed.

(** With a library that raises no [KeyError] the dispatcher and the generator
    it names agree on every sample and in every state. *)
Lemma DistGen_call_eq_generator self d g data w :
  no_KeyError lib -> (d, g) ∈ named_generators lib ->
  DistGen_call lib self data d w = g data w.
Proof.
  intros Hlib Hd.
  rewrite (DistGen_call_Some lib self data d g w) by by apply GENERATORS_registered.
  destruct (g data w) as [[a|e] w1] eqn:Hg; [done|].
  by rewrite (generator_KeyError lib d g data w e w1 Hlib Hd Hg).
Qed.

End Dispatcher.

(** * The claims *)

(** C1.  The specification has all eight names registered in both dictionaries
    and an array returned for each.  The code registers six:
    ["lognorm"] and ["pareto"] are keys of neither [DISTRIBUTIONS] nor
    [__GENERATORS], and on either name the dispatcher raises
    [NotImplementedError] for every sample, although the module defines the
    functions [lognorm] and [pareto]. *)
Theorem DistGen_call_lognorm_pareto_not_supported
    (lib : scipy) (self : DistGen) (data : list (float lib)) (w : world lib) :
  DISTRIBUTIONS !! "lognorm" = None /\ GENERATORS lib !! "lognorm" = None /\
  DISTRIBUTIONS !! "pareto" = None /\ GENERATORS lib !! "pareto" = None /\
  DistGen_call lib self data "lognorm" w =
    (Raise (NotImplementedError "lognorm is not supported."), refused lib self "lognorm" w) /\
  DistGen_call lib self data "pareto" w =
    (Raise (NotImplementedError "pareto is not supported."), refused lib self "pareto" w).
Proof.
  destruct lognorm_pareto_not_keys as [Hl Hp].
  split; [by apply DISTRIBUTIONS_unregistered|].
  split; [by apply GENERATORS_unregistered|].
  split; [by apply DISTRIBUTIONS_unregistered|].
  split; [by apply GENERATORS_unregistered|].
  split; apply DistGen_call_None; by apply GENERATORS_unregistered.
Qed.

(** C2.  The specification has the fitted shape passed to the sampling call as
    it is.  The code passes its double: with [(a, loc, scale)] the tuple
    fitted by [stats.chi2], the variates are drawn with [df = 2 * a]. *)
Theorem chi2_samples_with_twice_the_fitted_shape
    (lib : scipy) (data : list (float lib)) (w : world lib) (a loc scale : float lib) :
  fit lib stats.chi2 data = Return [a; loc; scale] ->
  chi2 lib data w = rvs_call lib stats.chi2 [twice lib a] loc scale (length data) w.
Proof.
  intros Hfit. unfold chi2, bind.
  rewrite (get_params_registered lib data _ stats.chi2)
    by (apply DISTRIBUTIONS_registered; listed).
  by rewrite Hfit.
Qed.

Lemma chi2_samples_with_twice_the_fitted_shape_witness :
  fit Toy.lib stats.chi2 [2; 3; 7]%Z = Return [3; 2; 5]%Z /\
  chi2 Toy.lib [2; 3; 7]%Z Toy.w0 = rvs_call Toy.lib stats.chi2 [6%Z] 2%Z 5%Z 3 Toy.w0.
Proof.
  split; [reflexivity|].
  apply (chi2_samples_with_twice_the_fitted_shape Toy.lib [2; 3; 7]%Z Toy.w0 3%Z 2%Z 5%Z).
  reflexivity.
Defined.

(** C3, as stated, fails: [get_params] wraps nothing.  On the empty sample
    the fit of [stats.uniform] raises a [ValueError], and that [ValueError],
    which is no [FitError], is what the caller of [get_params] receives. *)
Lemma get_params_raises_no_FitError :
  ~ (forall (lib : scipy) (data : list (float lib)) (d : string) (rv : stats.rv_continuous)
            (w : world lib) (e : exception),
       DISTRIBUTIONS !! d = Some rv -> fit lib rv data = Raise e ->
       exists e' w', get_params lib data d w = (Raise e', w') /\
                     isinstance e' "FitError" = true /\
                     contains (exc_arg e') d = true).
Proof.
  intros claim.
  assert (Hd : DISTRIBUTIONS !! "uniform" = Some stats.uniform)
    by (apply DISTRIBUTIONS_registered; listed).
  destruct (claim Toy.lib [] "uniform" stats.uniform Toy.w0
              (ValueError "zero-size array to reduction operation minimum which has no identity")
              Hd eq_refl)
    as (e' & w' & Hget & HFitError & _).
  rewrite (get_params_registered Toy.lib [] "uniform" stats.uniform Toy.w0 Hd) in Hget.
  simpl in Hget. injection Hget as <- _.
  vm_compute in HFitError. discriminate HFitError.
Qed.

(** C3, amended.  When the fit routine of a registered family raises,
    [get_params] raises that same exception, unwrapped; an instance of
    [AttributeError] (of the class or of one that inherits from it) is first
    logged at level ERROR as "<Name> has no fit attribute.", every other
    exception passes through untouched.  The failure is never swallowed. *)
Theorem get_params_reraises_fit_failure
    (lib : scipy) (data : list (float lib)) (d : string) (rv : stats.rv_continuous)
    (w : world lib) (e : exception) :
  DISTRIBUTIONS !! d = Some rv -> fit lib rv data = Raise e ->
  get_params lib data d w =
    (Raise e, if isinstance e "AttributeError" then no_fit_logged lib d w else w).
Proof.
  intros Hd Hfit. by rewrite (get_params_registered lib data d rv w Hd), Hfit.
Qed.

Lemma get_params_reraises_fit_failure_witness :
  get_params Toy.lib [] "uniform" Toy.w0 =
    (Raise (ValueError "zero-size array to reduction operation minimum which has no identity"),
     Toy.w0).
Proof.
  apply (get_params_reraises_fit_failure Toy.lib [] "uniform" stats.uniform Toy.w0).
  - apply DISTRIBUTIONS_registered. listed.
  - reflexivity.
Defined.

(** C4.  The specification gives the returned array the length of the sample
    for all eight names.  On ["lognorm"] and ["pareto"] no array is returned,
    whatever the sample, so there is no length to compare (for the six
    registered names see [DistGen_call_length]). *)
Theorem DistGen_call_lognorm_pareto_return_no_array
    (lib : scipy) (self : DistGen) (data arr : list (float lib)) (w w' : world lib) :
  DistGen_call lib self data "lognorm" w <> (Return arr, w') /\
  DistGen_call lib self data "pareto" w <> (Return arr, w').
Proof.
  destruct lognorm_pareto_not_keys as [Hl Hp].
  split.
  - rewrite DistGen_call_None by by apply GENERATORS_unregistered. discriminate.
  - rewrite DistGen_call_None by by apply GENERATORS_unregistered. discriminate.
Qed.

(** C6.  For every sample and every name outside the supported set the
    dispatcher raises [NotImplementedError]; the message is
    "<name> is not supported.", so the name occurs in it; no generator runs,
    the random source is left as it was and one DEBUG record is logged. *)
Theorem DistGen_call_unsupported
    (lib : scipy) (self : DistGen) (data : list (float lib)) (d : string) (w : world lib) :
  d ∉ supported_names ->
  DistGen_call lib self data d w =
    (Raise (NotImplementedError (d +:+ " is not supported.")), refused lib self d w) /\
  contains (d +:+ " is not supported.") d = true /\
  random_state lib (refused lib self d w) = random_state lib w.
Proof.
  intros Hd. split; [|split; [apply contains_app | reflexivity]].
  apply DistGen_call_None, GENERATORS_unregistered.
  intros Hin. apply Hd. unfold supported_names.
  repeat (apply elem_of_cons in Hin as [->|Hin]; [listed|]).
  by apply elem_of_nil in Hin.
Qed.

Lemma DistGen_call_unsupported_witness :
  ("not_a_real_distribution" ∉ supported_names) /\
  DistGen_call Toy.lib DistGen_init [1; 2; 3]%Z "not_a_real_distribution" Toy.w0 =
    (Raise (NotImplementedError "not_a_real_distribution is not supported."),
     refused Toy.lib DistGen_init "not_a_real_distribution" Toy.w0) /\
  contains "not_a_real_distribution is not supported." "not_a_real_distribution" = true.
Proof.
  assert (Hd : "not_a_real_distribution" ∉ supported_names)
    by (apply (bool_decide_unpack _); by vm_compute).
  destruct (DistGen_call_unsupported Toy.lib DistGen_init [1; 2; 3]%Z
              "not_a_real_distribution" Toy.w0 Hd) as (Hcall & Hmsg & _).
  split; [exact Hd|]. split; [exact Hcall | exact Hmsg].
Defined.

(** C7.  [DISTRIBUTIONS] and [__GENERATORS] have the same keys: a name has a
    family to fit exactly when it has a generator. *)
Theorem DISTRIBUTIONS_GENERATORS_same_keys (lib : scipy) :
  dom DISTRIBUTIONS = dom (GENERATORS lib) /\
  forall d : string, is_Some (DISTRIBUTIONS !! d) <-> is_Some (GENERATORS lib !! d).
Proof.
  assert (Hdom : dom DISTRIBUTIONS = dom (GENERATORS lib)).
  { unfold DISTRIBUTIONS, GENERATORS. by rewrite !dom_list_to_map_L. }
  split; [exact Hdom|].
  intros d. by rewrite <- !elem_of_dom, Hdom.
Qed.

(** C9.  Called directly, [lognorm] and [pareto] raise [KeyError] on every
    sample: the lookup in [DISTRIBUTIONS] fails, the handler of [get_params]
    takes [AttributeError] only, and nothing is logged or drawn. *)
Theorem lognorm_pareto_raise_KeyError
    (lib : scipy) (data : list (float lib)) (w : world lib) :
  lognorm lib data w = (Raise (KeyError "lognorm"), w) /\
  pareto lib data w = (Raise (KeyError "pareto"), w).
Proof.
  destruct lognorm_pareto_not_keys as [Hl Hp].
  split.
  - unfold lognorm, bind.
    by rewrite get_params_unregistered by by apply DISTRIBUTIONS_unregistered.
  - unfold pareto, bind.
    by rewrite get_params_unregistered by by apply DISTRIBUTIONS_unregistered.
Qed.




(** * Further properties of [explorer/stats.py] *)

(** ** The small instance keeps the promises of the library *)

Lemma Toy_draw_length (size : nat) (low high : Z) (tape : list bool) :
  length (Toy.draw size low high tape).1 = size.
Proof.
  revert tape. induction size as [|n IH]; intros tape; simpl; [done|].
  specialize (IH (tl tape)).
  destruct (Toy.draw n low high (tl tape)) as [xs tape']. simpl in *. by rewrite IH.
Qed.

Lemma Toy_rvs_size : rvs_size Toy.lib.
Proof.
  intros rv shapes loc scale size r xs r'. simpl. unfold Toy.rvs.
  destruct (scale <? 0)%Z; [discriminate|].
  pose proof (Toy_draw_length size (loc + foldr Z.add 0%Z shapes)%Z
                (loc + foldr Z.add 0%Z shapes + scale)%Z r) as Hlen.
  destruct (Toy.draw size _ _ r) as [ys tape']. simpl in Hlen.
  by intros [= <- _].
Qed.

(** ** A fit that fails, seen from a generator *)

Section Failures.
Variable lib : scipy.
Implicit Types (data arr t : list (float lib)) (w : world lib) (d : string).
Implicit Type g : list (float lib) -> M lib (list (float lib)).

Lemma DISTRIBUTIONS_inv d rv :
  DISTRIBUTIONS !! d = Some rv ->
  (d, rv) ∈ [ ("normal", stats.norm); ("chi2", stats.chi2); ("exponential", stats.expon);
              ("gamma", stats.gamma); ("logistic", stats.logistic);
              ("uniform", stats.uniform) ].
Proof. apply elem_of_list_to_map_2. Qed.

(** The generator registered under [d] stops at a failing fit: it raises what
    [get_params] raises and calls no [rvs]. *)
Lemma registered_fit_failure d rv data w e :
  DISTRIBUTIONS !! d = Some rv -> fit lib rv data = Raise e ->
  exists g, GENERATORS lib !! d = Some g /\
            g data w =
              (Raise e, if isinstance e "AttributeError" then no_fit_logged lib d w else w).
Proof.
  intros Hrv Hfit. pose proof (DISTRIBUTIONS_inv d rv Hrv) as Hd.
  repeat (apply elem_of_cons in Hd as [[= -> ->]|Hd]); [..|by apply elem_of_nil in Hd].
  - exists (normal lib). split; [apply GENERATORS_registered; listed|].
    unfold normal, bind. by rewrite (get_params_registered lib data _ _ w Hrv), Hfit.
  - exists (chi2 lib). split; [apply GENERATORS_registered; listed|].
    unfold chi2, bind. by rewrite (get_params_registered lib data _ _ w Hrv), Hfit.
  - exists (exponential lib). split; [apply GENERATORS_registered; listed|].
    unfold exponential, bind. by rewrite (get_params_registered lib data _ _ w Hrv), Hfit.
  - exists (gamma lib). split; [apply GENERATORS_registered; listed|].
    unfold gamma, bind. by rewrite (get_params_registered lib data _ _ w Hrv), Hfit.
  - exists (logistic lib). split; [apply GENERATORS_registered; listed|].
    unfold logistic, bind. by rewrite (get_params_registered lib data _ _ w Hrv), Hfit.
  - exists (uniform lib). split; [apply GENERATORS_registered; listed|].
    unfold uniform, bind. by rewrite (get_params_registered lib data _ _ w Hrv), Hfit.
Qed.

Lemma rvs_call_records rv (shapes : list (float lib)) loc scale size w :
  records lib (rvs_call lib rv shapes loc scale size w).2 = records lib w.
Proof.
  unfold rvs_call.
  by destruct (rvs lib rv shapes loc scale size (random_state lib w)) as [o r].
Qed.

(** The trace of a registered generator in the log: nothing, or the one ERROR
    record of [get_params] when the fit raised an [AttributeError]. *)
Ltac trace_generator rv data :=
  unfold normal, chi2, exponential, gamma, logistic, uniform, bind;
  rewrite (get_params_registered lib data _ rv) by (apply DISTRIBUTIONS_registered; listed);
  let t := fresh "t" in
  let e := fresh "e" in
  let Ha := fresh "Ha" in
  destruct (fit lib rv data) as [t|e];
  [ destruct t as [|? [|? [|? [|? ?]]]]; simpl; left;
    first [ reflexivity | apply rvs_call_records ]
  | destruct (isinstance e "AttributeError") eqn:Ha; simpl;
    [ right; exists e; by rewrite Ha | left; reflexivity ] ].

Lemma generator_records d g data w :
  (d, g) ∈ named_generators lib ->
  records lib (g data w).2 = records lib w \/
  exists e, (g data w).1 = Raise e /\ isinstance e "AttributeError" = true /\
            (g data w).2 = no_fit_logged lib d w.
Proof.
  intros Hd. unfold named_generators in Hd.
  repeat (apply elem_of_cons in Hd as [[= -> ->]|Hd]); [..|by apply elem_of_nil in Hd].
  - trace_generator stats.norm data.
  - trace_generator stats.chi2 data.
  - trace_generator stats.expon data.
  - trace_generator stats.gamma data.
  - trace_generator stats.logistic data.
  - trace_generator stats.uniform data.
Qed.

End Failures.

(** ** [get_params] *)

(** X1.  A name that is not a key of [DISTRIBUTIONS] (the keys are matched
    exactly, letter case included) makes [get_params] raise a [KeyError]
    carrying that name, whatever the data: no fit is attempted, nothing is
    logged, the handler for [AttributeError] does not apply. *)
Theorem get_params_missing_key
    (lib : scipy) (data : list (float lib)) (d : string) (w : world lib) :
  d ∉ ["normal"; "chi2"; "exponential"; "gamma"; "logistic"; "uniform"] ->
  get_params lib data d w = (Raise (KeyError d), w).
Proof.
  intros Hd. by apply get_params_unregistered, DISTRIBUTIONS_unregistered.
Qed.

Lemma get_params_missing_key_witness :
  get_params Toy.lib [1; 2; 3]%Z "Normal" Toy.w0 = (Raise (KeyError "Normal"), Toy.w0).
Proof.
  apply (get_params_missing_key Toy.lib [1; 2; 3]%Z "Normal" Toy.w0).
  apply (bool_decide_unpack _). by vm_compute.
Defined.

(** X2.  [get_params] changes the state in one case only: when it raises an
    instance of [AttributeError], the one ERROR record
    "<Name> has no fit attribute." has been appended to the log.  In every
    other case (a tuple returned, the [KeyError] of an unknown name, any other
    exception of the fit) the log and the random source are as they were. *)
Theorem get_params_logs_only_AttributeError
    (lib : scipy) (data : list (float lib)) (d : string) (w : world lib) :
  (get_params lib data d w).2 =
    match (get_params lib data d w).1 with
    | Raise e => if isinstance e "AttributeError" then no_fit_logged lib d w else w
    | Return _ => w
    end.
Proof.
  destruct (DISTRIBUTIONS !! d) as [rv|] eqn:Hd.
  - rewrite (get_params_registered lib data d rv w Hd).
    destruct (fit lib rv data) as [t|e]; simpl; [done|].
    by destruct (isinstance e "AttributeError").
  - by rewrite (get_params_unregistered lib data d w Hd).
Qed.

(** ** The generators *)

(** X3.  [normal], [exponential], [logistic], [uniform] and [gamma] hand the
    fitted tuple to the sampling call of their own family as it is: location
    and scale in their places, the shape of [gamma] as [a], and
    [size = len(data)].  (Of the registered generators only [chi2] alters what
    was fitted.) *)
Theorem generators_sample_with_fitted_parameters
    (lib : scipy) (data : list (float lib)) (w : world lib) (loc scale : float lib) :
  (fit lib stats.norm data = Return [loc; scale] ->
   normal lib data w = rvs_call lib stats.norm [] loc scale (length data) w) /\
  (fit lib stats.expon data = Return [loc; scale] ->
   exponential lib data w = rvs_call lib stats.expon [] loc scale (length data) w) /\
  (fit lib stats.logistic data = Return [loc; scale] ->
   logistic lib data w = rvs_call lib stats.logistic [] loc scale (length data) w) /\
  (fit lib stats.uniform data = Return [loc; scale] ->
   uniform lib data w = rvs_call lib stats.uniform [] loc scale (length data) w) /\
  (forall a : float lib,
     fit lib stats.gamma data = Return [a; loc; scale] ->
     gamma lib data w = rvs_call lib stats.gamma [a] loc scale (length data) w).
Proof.
  split; [|split; [|split; [|split]]].
  - intros Hfit. unfold normal, bind.
    rewrite (get_params_registered lib data _ stats.norm)
      by (apply DISTRIBUTIONS_registered; listed).
    by rewrite Hfit.
  - intros Hfit. unfold exponential, bind.
    rewrite (get_params_registered lib data _ stats.expon)
      by (apply DISTRIBUTIONS_registered; listed).
    by rewrite Hfit.
  - intros Hfit. unfold logistic, bind.
    rewrite (get_params_registered lib data _ stats.logistic)
      by (apply DISTRIBUTIONS_registered; listed).
    by rewrite Hfit.
  - intros Hfit. unfold uniform, bind.
    rewrite (get_params_registered lib data _ stats.uniform)
      by (apply DISTRIBUTIONS_registered; listed).
    by rewrite Hfit.
  - intros a Hfit. unfold gamma, bind.
    rewrite (get_params_registered lib data _ stats.gamma)
      by (apply DISTRIBUTIONS_registered; listed).
    by rewrite Hfit.
Qed.

Lemma generators_sample_with_fitted_parameters_witness :
  normal Toy.lib [1; 2; 3; 4; 5]%Z Toy.w0 =
    rvs_call Toy.lib stats.norm [] 1%Z 4%Z 5 Toy.w0 /\
  gamma Toy.lib [1; 2; 3; 4; 5]%Z Toy.w0 =
    rvs_call Toy.lib stats.gamma [5%Z] 1%Z 4%Z 5 Toy.w0.
Proof.
  destruct (generators_sample_with_fitted_parameters Toy.lib [1; 2; 3; 4; 5]%Z Toy.w0 1%Z 4%Z)
    as (Hnormal & _ & _ & _ & Hgamma).
  split; [apply Hnormal | apply Hgamma]; reflexivity.
Defined.

(** X4.  Provided [rvs] returns as many variates as its [size] argument asks
    for, an array returned by a registered generator, or by the dispatcher on
    a registered name, has exactly [len(data)] elements. *)
Theorem sample_has_len_data
    (lib : scipy) (self : DistGen) (d : string)
    (g : list (float lib) -> M lib (list (float lib)))
    (data : list (float lib)) (w : world lib) :
  rvs_size lib -> (d, g) ∈ named_generators lib ->
  (forall arr w', g data w = (Return arr, w') -> length arr = length data) /\
  (forall arr w', DistGen_call lib self data d w = (Return arr, w') ->
                  length arr = length data).
Proof.
  intros Hsize Hd. split; intros arr w' Hret.
  - by eapply generator_length.
  - by eapply DistGen_call_length.
Qed.

Lemma sample_has_len_data_witness :
  DistGen_call Toy.lib DistGen_init [1; 2; 3; 4; 5]%Z "gamma" Toy.w0 =
    (Return [10; 6; 6; 10; 10]%Z, World Toy.lib [false; true] []) /\
  length [10; 6; 6; 10; 10]%Z = length [1; 2; 3; 4; 5]%Z.
Proof.
  assert (Hrun : DistGen_call Toy.lib DistGen_init [1; 2; 3; 4; 5]%Z "gamma" Toy.w0 =
                   (Return [10; 6; 6; 10; 10]%Z, World Toy.lib [false; true] []))
    by (by vm_compute).
  split; [exact Hrun|].
  assert (Hd : ("gamma", gamma Toy.lib) ∈ named_generators Toy.lib)
    by (unfold named_generators; listed).
  destruct (sample_has_len_data Toy.lib DistGen_init "gamma" (gamma Toy.lib)
              [1; 2; 3; 4; 5]%Z Toy.w0 Toy_rvs_size Hd) as [_ Hcall].
  exact (Hcall _ _ Hrun).
Defined.

(** ** The dispatcher *)

(** X5.  On a registered name, a fit that raises anything but an instance of
    [KeyError] ends the call of the dispatcher with that same exception: no variate is
    drawn, the random source is left as it was, nothing is retried, and the
    log gains a record only for an [AttributeError]. *)
Theorem DistGen_call_fit_failure
    (lib : scipy) (self : DistGen) (d : string) (rv : stats.rv_continuous)
    (data : list (float lib)) (w : world lib) (e : exception) :
  DISTRIBUTIONS !! d = Some rv -> fit lib rv data = Raise e ->
  isinstance e "KeyError" = false ->
  DistGen_call lib self data d w =
    (Raise e, if isinstance e "AttributeError" then no_fit_logged lib d w else w).
Proof.
  intros Hrv Hfit Hk.
  destruct (registered_fit_failure lib d rv data w e Hrv Hfit) as (g & Hg & Hrun).
  by rewrite (DistGen_call_Some lib self data d g w Hg), Hrun, Hk.
Qed.

Lemma DistGen_call_fit_failure_witness :
  DistGen_call Toy.lib DistGen_init [] "uniform" Toy.w0 =
    (Raise (ValueError "zero-size array to reduction operation minimum which has no identity"),
     Toy.w0).
Proof.
  apply (DistGen_call_fit_failure Toy.lib DistGen_init "uniform" stats.uniform [] Toy.w0).
  - apply DISTRIBUTIONS_registered. listed.
  - reflexivity.
  - reflexivity.
Defined.

(** X6.  The [except KeyError] of [DistGen.__call__] spans the call of the
    generator, not only the lookup of the name: when the fit of a registered
    family raises an instance of [KeyError], the dispatcher reports
    "<name> is not supported." as a [NotImplementedError], for a name that is
    registered, and the [KeyError] itself is lost.  The DEBUG record of the
    dispatcher follows whatever [get_params] logged (nothing, unless the
    exception is an [AttributeError] as well). *)
Theorem DistGen_call_masks_KeyError
    (lib : scipy) (self : DistGen) (d : string) (rv : stats.rv_continuous)
    (data : list (float lib)) (w : world lib) (e : exception) :
  DISTRIBUTIONS !! d = Some rv -> fit lib rv data = Raise e ->
  isinstance e "KeyError" = true ->
  DistGen_call lib self data d w =
    (Raise (NotImplementedError (d +:+ " is not supported.")),
     refused lib self d
       (if isinstance e "AttributeError" then no_fit_logged lib d w else w)).
Proof.
  intros Hrv Hfit Hk.
  destruct (registered_fit_failure lib d rv data w e Hrv Hfit) as (g & Hg & Hrun).
  by rewrite (DistGen_call_Some lib self data d g w Hg), Hrun, Hk.
Qed.

Lemma DistGen_call_masks_KeyError_witness :
  DistGen_call Toy.lib_KeyError DistGen_init [1; 2; 3]%Z "normal"
      (World Toy.lib_KeyError [true] []) =
    (Raise (NotImplementedError "normal is not supported."),
     World Toy.lib_KeyError [true]
       [ {| name := "DistGen"; levelname := DEBUG; msg := "normal is not supported." |} ]).
Proof.
  apply (DistGen_call_masks_KeyError Toy.lib_KeyError DistGen_init "normal" stats.norm
           [1; 2; 3]%Z (World Toy.lib_KeyError [true] []) (KeyError "0")).
  - apply DISTRIBUTIONS_registered. listed.
  - reflexivity.
  - reflexivity.
Defined.

(** X7.  Whatever the name and the data, a call of the dispatcher only
    appends to the log, and what it appends are, in this order and each at
    most once, the ERROR record of [get_params] and its own DEBUG record;
    nothing is appended when it returns an array. *)
Theorem DistGen_call_appends_to_log
    (lib : scipy) (self : DistGen) (data : list (float lib)) (d : string) (w : world lib) :
  exists l : list LogRecord,
    records lib (DistGen_call lib self data d w).2 = (records lib w ++ l)%list /\
    l `sublist_of`
      [ {| name := logger; levelname := ERROR;
           msg := capitalize d +:+ " has no fit attribute." |};
        {| name := _logger self; levelname := DEBUG; msg := d +:+ " is not supported." |} ] /\
    (forall arr, (DistGen_call lib self data d w).1 = Return arr -> l = []).
Proof.
  set (err := {| name := logger; levelname := ERROR;
                 msg := capitalize d +:+ " has no fit attribute." |}).
  set (dbg := {| name := _logger self; levelname := DEBUG;
                 msg := d +:+ " is not supported." |}).
  assert (Hdone : forall (o : outcome (list (float lib))) (w' : world lib) (l : list LogRecord),
             records lib w' = (records lib w ++ l)%list -> l `sublist_of` [err; dbg] ->
             (forall arr, o = Return arr -> l = []) ->
             exists l, records lib (o, w').2 = (records lib w ++ l)%list /\
                       l `sublist_of` [err; dbg] /\
                       (forall arr, (o, w').1 = Return arr -> l = [])).
  { intros o w' l Hrec Hsub Hret. by exists l. }
  assert (Herr : [err] `sublist_of` [err; dbg]) by apply sublist_skip, sublist_nil_l.
  assert (Hdbg : [dbg] `sublist_of` [err; dbg]) by apply sublist_cons, sublist_skip, sublist_nil_l.
  destruct (GENERATORS lib !! d) as [g|] eqn:Hg.
  - rewrite (DistGen_call_Some lib self data d g w Hg).
    pose proof (generator_records lib d g data w (elem_of_list_to_map_2 _ _ _ Hg)) as Hrec.
    destruct (g data w) as [[arr|e] w1]; simpl in Hrec.
    + destruct Hrec as [Hrec|(e & He & _)]; [|discriminate He].
      apply (Hdone _ _ []); [by rewrite app_nil_r | apply sublist_nil_l | done].
    + destruct (isinstance e "KeyError") eqn:Hk.
      * destruct Hrec as [Hrec|(e' & _ & _ & ->)].
        -- apply (Hdone _ _ [dbg]);
             [simpl; by rewrite Hrec | done | intros arr Harr; discriminate Harr].
        -- apply (Hdone _ _ [err; dbg]);
             [simpl; by rewrite <- app_assoc | done | intros arr Harr; discriminate Harr].
      * destruct Hrec as [Hrec|(e' & _ & _ & ->)].
        -- apply (Hdone _ _ []); [by rewrite app_nil_r | apply sublist_nil_l | done].
        -- apply (Hdone _ _ [err]);
             [reflexivity | done | intros arr Harr; discriminate Harr].
  - rewrite (DistGen_call_None lib self data d w Hg).
    apply (Hdone _ _ [dbg]); [reflexivity | done | intros arr Harr; discriminate Harr].
Qed.

(** Both records are appended when the fit raises an exception that is an
    [AttributeError] and a [KeyError] at once. *)
Example DistGen_call_two_records :
  DistGen_call Toy.lib_MissingField DistGen_init [1; 2; 3]%Z "normal"
      (World Toy.lib_MissingField [true] []) =
    (Raise (NotImplementedError "normal is not supported."),
     World Toy.lib_MissingField [true]
       [ {| name := "explorer.stats"; levelname := ERROR;
            msg := "Normal has no fit attribute." |};
         {| name := "DistGen"; levelname := DEBUG; msg := "normal is not supported." |} ]).
Proof. by vm_compute. Qed.

(** * Properties of [Dataset.select] *)

(** X8.  The labels [Dataset.select] indexes the frame with are labels of the
    frame, in the order of the frame and each as often as the frame has it:
    with [exclude] given, the columns not named in it; else with [include]
    given, the columns named in it (names in [include] that are no column are
    passed over, its order and repetitions play no part); else all. *)
Theorem select_cols_sublist (columns : list string) (include exclude : option (list string)) :
  select_cols columns include exclude `sublist_of` columns /\
  (forall col : string,
     col ∈ select_cols columns include exclude <->
     col ∈ columns /\
     match exclude, include with
     | Some exclude, _ => col ∉ exclude
     | None, Some include => col ∈ include
     | None, None => True
     end).
Proof.
  unfold select_cols. destruct exclude as [ex|]; [|destruct include as [inc|]].
  - split; [apply sublist_filter|]. intros col. rewrite list_elem_of_filter. tauto.
  - split; [apply sublist_filter|]. intros col. rewrite list_elem_of_filter. tauto.
  - split; [done|]. tauto.
Qed.

(** X9.  For one list of names, selecting with it as [include] and selecting
    with it as [exclude] split the columns of the frame in two: together the
    two selections hold every column exactly as often as the frame does.
    Once [exclude] is given, [include] is not looked at. *)
Theorem select_cols_include_exclude_split
    (columns names : list string) (include : option (list string)) :
  select_cols columns (Some names) None ++ select_cols columns include (Some names)
    ≡ₚ columns.
Proof.
  unfold select_cols. apply (filter_app_complement (fun col => col ∈ names)).
Qed.
